(** * MapView: dataset / map-source / draw-tool synchronisation

    A shallow embedding of [src/components/MapView.jsx].  The component keeps
    three things in step: the [items] state cell filled by asynchronous
    fetches, the GeoJSON source of the map, and the polygon held by the draw
    control.  The embedding is an event-driven state machine: every callback
    of the component (effects, button handlers, promise continuations, map
    event handlers) is a function on an explicit [State], and the browser is
    the list of events that drives them. *)

From Stdlib Require Import List String Bool Arith QArith Lia.
Import ListNotations.
Set Warnings "-register-all".
Local Open Scope string_scope.
Local Open Scope list_scope.

(** ** JavaScript values

    Records travel through the component as parsed JSON; the code reads them
    with property access, [||] and [??].  Numbers are rationals: every finite
    double is one, and the component never computes with them. *)
Module Js.

Inductive value : Type :=
| Undefined
| Null
| Bool (b : bool)
| Num (q : Q)
| Str (s : string)
| Arr (xs : list value)
| Obj (fields : list (string * value)).

(** ToBoolean. *)
Definition truthy (v : value) : bool :=
  match v with
  | Undefined | Null => false
  | Bool b => b
  | Num q => negb (Qeq_bool q 0)
  | Str s => negb (String.eqb s "")
  | Arr _ | Obj _ => true
  end.

(** [a || b] *)
Definition or_else (a b : value) : value := if truthy a then a else b.

(** [a ?? b] *)
Definition nullish_or (a b : value) : value :=
  match a with
  | Undefined | Null => b
  | _ => a
  end.

Fixpoint assoc (k : string) (fields : list (string * value)) : value :=
  match fields with
  | [] => Undefined
  | (k', v) :: rest => if String.eqb k k' then v else assoc k rest
  end.

(** [v.k] for the own-property names the component reads ([items], [id],
    [title], [price], [location]; none of them is built in on strings, numbers
    or arrays).  [None] is the TypeError of reading a property of [null] or
    [undefined]. *)
Definition get (v : value) (k : string) : option value :=
  match v with
  | Undefined | Null => None
  | Obj fields => Some (assoc k fields)
  | _ => Some Undefined
  end.

End Js.

Definition bind {A B : Type} (o : option A) (k : A -> option B) : option B :=
  match o with
  | Some a => k a
  | None => None
  end.

Notation "x <- e ;; k" := (bind e (fun x => k))
  (at level 61, e at next level, right associativity).

(** [xs.map(f)] where [f] may throw: the first throw aborts the whole map. *)
Fixpoint map_throwing {A B : Type} (f : A -> option B) (xs : list A) : option (list B) :=
  match xs with
  | [] => Some []
  | x :: rest =>
      y <- f x ;;
      ys <- map_throwing f rest ;;
      Some (y :: ys)
  end.

(** ** The derived collection ([geojson], lines 76-87) *)

(** The arrow function passed to [.map]. *)
Definition feature (p : Js.value) : option Js.value :=
  id <- Js.get p "id" ;;
  title <- Js.get p "title" ;;
  price <- Js.get p "price" ;;
  location <- Js.get p "location" ;;
  Some (Js.Obj
          [ ("type", Js.Str "Feature");
            ("properties",
              Js.Obj [ ("id", id);
                       ("title", title);
                       ("price", Js.nullish_or price (Js.Str "")) ]);
            ("geometry", location) ]).

Definition feature_collection (features : list Js.value) : Js.value :=
  Js.Obj [ ("type", Js.Str "FeatureCollection");
           ("features", Js.Arr features) ].

(** The [useMemo] body.  [None] is a render that throws: a record that is
    [null], or an [items] that is truthy and has no [map] method. *)
Definition geojson (items : Js.value) : option Js.value :=
  match Js.or_else items (Js.Arr []) with
  | Js.Arr ps =>
      features <- map_throwing feature ps ;;
      Some (feature_collection features)
  | _ => None
  end.

(** ** Property records as the backend sends them (section 3 of the design) *)

Definition Position : Type := (Q * Q)%type.

Definition position_value (p : Position) : Js.value :=
  Js.Arr [Js.Num (fst p); Js.Num (snd p)].

Record PropertyRecord : Type := {
  rid : string;
  rtitle : string;
  rprice : option Q;
  rlocation : Position
}.

Definition point_value (p : Position) : Js.value :=
  Js.Obj [ ("type", Js.Str "Point"); ("coordinates", position_value p) ].

(** An absent price is a missing [price] member. *)
Definition record_value (r : PropertyRecord) : Js.value :=
  Js.Obj
    (("id", Js.Str (rid r))
       :: ("title", Js.Str (rtitle r))
       :: match rprice r with
          | Some q => [("price", Js.Num q)]
          | None => []
          end
       ++ [("location", point_value (rlocation r))]).

Definition dataset_value (d : list PropertyRecord) : Js.value :=
  Js.Arr (map record_value d).

(** What a reader of the GeoJSON source sees of one feature. *)
Record FeatureView : Type := {
  vtype : Js.value;
  vid : Js.value;
  vtitle : Js.value;
  vprice : Js.value;
  vgeometry : Js.value
}.

Definition view (f : Js.value) : option FeatureView :=
  ty <- Js.get f "type" ;;
  props <- Js.get f "properties" ;;
  id <- Js.get props "id" ;;
  title <- Js.get props "title" ;;
  price <- Js.get props "price" ;;
  geometry <- Js.get f "geometry" ;;
  Some {| vtype := ty; vid := id; vtitle := title; vprice := price; vgeometry := geometry |}.

Definition expected_view (r : PropertyRecord) : FeatureView :=
  {| vtype := Js.Str "Feature";
     vid := Js.Str (rid r);
     vtitle := Js.Str (rtitle r);
     vprice := match rprice r with
               | Some q => Js.Num q
               | None => Js.Str ""
               end;
     vgeometry := point_value (rlocation r) |}.

(** ** Drawn geometry (what [draw.getAll()] returns) *)

Inductive Geometry : Type :=
| Point (p : Position)
| LineString (ps : list Position)
| Polygon (rings : list (list Position)).

(** [geometry.type] *)
Definition geometry_type (g : Geometry) : string :=
  match g with
  | Point _ => "Point"
  | LineString _ => "LineString"
  | Polygon _ => "Polygon"
  end.

Definition ring_value (r : list Position) : Js.value :=
  Js.Arr (map position_value r).

(** [geometry.coordinates] *)
Definition coordinates_value (g : Geometry) : Js.value :=
  match g with
  | Point p => position_value p
  | LineString ps => ring_value ps
  | Polygon rings => Js.Arr (map ring_value rings)
  end.

Record DrawFeature : Type := {
  did : string;
  dgeometry : Geometry
}.

(** [(g) => g.geometry.type === 'Polygon'] *)
Definition is_polygon (g : DrawFeature) : bool :=
  String.eqb (geometry_type (dgeometry g)) "Polygon".

(** ** The network *)

Inductive Request : Type :=
| Get (url : string)
| PostJson (url : string) (body : Js.value).
(* [PostJson]: method POST, Content-Type application/json, and the body is
   the value handed to JSON.stringify. *)

Inductive JsError : Type :=
| FetchRejected     (* the promise of fetch() rejects *)
| BodyNotJson       (* the promise of res.json() rejects *)
| TypeError.        (* property read on null/undefined, call of a non-function *)

(** How one fetch ends: the transport fails, or a response arrives whose body
    is JSON ([Some]) or is not ([None]). *)
Inductive Response : Type :=
| NetworkFailure
| Body (json : option Js.value).

(** The three lines every operation runs after its fetch:
      [const res = await fetch(...)]
      [const data = await res.json()]
      [... data.items || [] ...]
    with the error that aborts them on the right. *)
Definition receive (r : Response) : Js.value + JsError :=
  match r with
  | NetworkFailure => inr FetchRejected
  | Body None => inr BodyNotJson
  | Body (Some data) =>
      match Js.get data "items" with
      | None => inr TypeError
      | Some v => inl (Js.or_else v (Js.Arr []))
      end
  end.

(** The async function a pending fetch will resume. *)
Inductive Operation : Type :=
| LoadAll
| RunSearch
| ClearSearch.

(** ** The map *)

Record MapSurface : Type := {
  styleLoaded : bool;            (* the answer of [isStyleLoaded()] *)
  loadClosure : Js.value;        (* [geojson] as the 'load' handler closed over it *)
  source : option Js.value;      (* data of source 'properties'; [None] before addSource *)
  layers : list string;
  clickHandlers : list string;   (* layers with a click handler *)
  eased : list (Position * Q);   (* [easeTo] commands, oldest first *)
  removed : bool
}.

Record RenderedFeature : Type := {
  cluster_id : option Z;         (* [properties.cluster_id], [None] is undefined *)
  rcoordinates : Position        (* [geometry.coordinates] *)
}.

(** What the map answers during one click on layer 'clusters'. *)
Record ClusterClick : Type := {
  rendered : list RenderedFeature;      (* queryRenderedFeatures(e.point, {layers: ['clusters']}) *)
  expansionZoom : option Z -> option Q  (* getClusterExpansionZoom: [None] is [err] *)
}.

(** ** The component *)

Record State : Type := {
  backend : option string;              (* import.meta.env.VITE_BACKEND_URL *)
  mounted : bool;
  loading : bool;
  items : Js.value;
  mapRef : option MapSurface;
  drawRef : option (list DrawFeature);
  network : list Request;               (* every request issued, oldest first *)
  inflight : list (nat * Operation);    (* fetches not settled yet *)
  console : list JsError;               (* console.error, oldest first *)
  unhandled : list JsError              (* uncaught exceptions and unhandled rejections *)
}.

Definition set_mounted (b : bool) (st : State) : State :=
  {| backend := backend st; mounted := b; loading := loading st;
     items := items st; mapRef := mapRef st; drawRef := drawRef st;
     network := network st; inflight := inflight st;
     console := console st; unhandled := unhandled st |}.

Definition set_loading (b : bool) (st : State) : State :=
  {| backend := backend st; mounted := mounted st; loading := b;
     items := items st; mapRef := mapRef st; drawRef := drawRef st;
     network := network st; inflight := inflight st;
     console := console st; unhandled := unhandled st |}.

Definition set_items (v : Js.value) (st : State) : State :=
  {| backend := backend st; mounted := mounted st; loading := loading st;
     items := v; mapRef := mapRef st; drawRef := drawRef st;
     network := network st; inflight := inflight st;
     console := console st; unhandled := unhandled st |}.

Definition set_map (m : option MapSurface) (st : State) : State :=
  {| backend := backend st; mounted := mounted st; loading := loading st;
     items := items st; mapRef := m; drawRef := drawRef st;
     network := network st; inflight := inflight st;
     console := console st; unhandled := unhandled st |}.

Definition set_draw (d : option (list DrawFeature)) (st : State) : State :=
  {| backend := backend st; mounted := mounted st; loading := loading st;
     items := items st; mapRef := mapRef st; drawRef := d;
     network := network st; inflight := inflight st;
     console := console st; unhandled := unhandled st |}.

Definition set_inflight (l : list (nat * Operation)) (st : State) : State :=
  {| backend := backend st; mounted := mounted st; loading := loading st;
     items := items st; mapRef := mapRef st; drawRef := drawRef st;
     network := network st; inflight := l;
     console := console st; unhandled := unhandled st |}.

(** [fetch(...)] called from [op]: the request leaves at once, the rest of
    [op] waits.  A fetch is named by its position in [network]. *)
Definition fetch (op : Operation) (req : Request) (st : State) : State :=
  {| backend := backend st; mounted := mounted st; loading := loading st;
     items := items st; mapRef := mapRef st; drawRef := drawRef st;
     network := network st ++ [req];
     inflight := inflight st ++ [(List.length (network st), op)];
     console := console st; unhandled := unhandled st |}.

(** [console.error(e)] *)
Definition console_error (e : JsError) (st : State) : State :=
  {| backend := backend st; mounted := mounted st; loading := loading st;
     items := items st; mapRef := mapRef st; drawRef := drawRef st;
     network := network st; inflight := inflight st;
     console := console st ++ [e]; unhandled := unhandled st |}.

(** An exception nobody catches, or the rejection of an async function whose
    promise nobody handles. *)
Definition escapes (e : JsError) (st : State) : State :=
  {| backend := backend st; mounted := mounted st; loading := loading st;
     items := items st; mapRef := mapRef st; drawRef := drawRef st;
     network := network st; inflight := inflight st;
     console := console st; unhandled := unhandled st ++ [e] |}.

Definition set_source (g : Js.value) (m : MapSurface) : MapSurface :=
  {| styleLoaded := styleLoaded m; loadClosure := loadClosure m;
     source := Some g; layers := layers m;
     clickHandlers := clickHandlers m; eased := eased m; removed := removed m |}.

Definition set_styleLoaded (b : bool) (m : MapSurface) : MapSurface :=
  {| styleLoaded := b; loadClosure := loadClosure m;
     source := source m; layers := layers m;
     clickHandlers := clickHandlers m; eased := eased m; removed := removed m |}.

(** [map.easeTo({ center, zoom })] *)
Definition easeTo (center : Position) (zoom : Q) (m : MapSurface) : MapSurface :=
  {| styleLoaded := styleLoaded m; loadClosure := loadClosure m;
     source := source m; layers := layers m;
     clickHandlers := clickHandlers m; eased := eased m ++ [(center, zoom)];
     removed := removed m |}.

(** [map.remove()] *)
Definition map_remove (m : MapSurface) : MapSurface :=
  {| styleLoaded := styleLoaded m; loadClosure := loadClosure m;
     source := source m; layers := layers m;
     clickHandlers := []; eased := eased m; removed := true |}.

(** [`${backend}`]: an absent value prints as the text undefined. *)
Definition backend_text (st : State) : string :=
  match backend st with
  | Some url => url
  | None => "undefined"
  end.

Definition properties_url (st : State) : string :=
  String.append (backend_text st) "/api/properties".

Definition search_url (st : State) : string :=
  String.append (backend_text st) "/api/properties/search".

(** *** Effects *)

(** First effect (deps []), lines 89-164: the map and the draw control are
    built once (the container div is attached by the time effects run); the
    'load' handler keeps the [geojson] of this render. *)
Definition create_map (g : Js.value) (st : State) : State :=
  match mapRef st with
  | Some _ => st
  | None =>
      set_draw (Some [])
        (set_map (Some {| styleLoaded := false; loadClosure := g; source := None;
                          layers := []; clickHandlers := []; eased := [];
                          removed := false |}) st)
  end.

(** Second effect (deps [geojson]), lines 167-172. *)
Definition sync_source (g : Js.value) (st : State) : State :=
  match mapRef st with
  | None => st
  | Some m =>
      if negb (styleLoaded m) then st
      else match source m with
           | None => st
           | Some _ => set_map (Some (set_source g m)) st
           end
  end.

(** Third effect (deps [backend]), lines 174-186: [loadAll()] up to its
    first await. *)
Definition loadAll (st : State) : State :=
  fetch LoadAll (Get (properties_url st)) st.

(** The cleanup of the first effect. *)
Definition unmount (st : State) : State :=
  set_mounted false (set_map (option_map map_remove (mapRef st)) st).

Definition initial (url : option string) : State :=
  {| backend := url; mounted := true; loading := true;
     items := Js.Arr []; mapRef := None; drawRef := None;
     network := []; inflight := []; console := []; unhandled := [] |}.

(** The first render and its three effects, in source order. *)
Definition mount (url : option string) : State :=
  let st := initial url in
  match geojson (items st) with
  | Some g => loadAll (sync_source g (create_map g st))
  | None => unmount (escapes TypeError st)
  end.

(** A render after [items] changed: [geojson] is recomputed and the second
    effect runs with it.  A render that throws takes the component down. *)
Definition rerender (st : State) : State :=
  match geojson (items st) with
  | Some g => sync_source g st
  | None => unmount (escapes TypeError st)
  end.

(** The state setters do nothing once the component is gone. *)
Definition setItems (v : Js.value) (st : State) : State :=
  if mounted st then rerender (set_items v st) else st.

Definition setLoading (b : bool) (st : State) : State :=
  if mounted st then set_loading b st else st.

(** *** Promise continuations *)

(** [loadAll] after its fetch settles (lines 177-183). *)
Definition loadAll_resume (r : Response) (st : State) : State :=
  match receive r with
  | inl v => setItems v st
  | inr e => console_error e st
  end.

(** [runSearch] after its fetch settles (lines 195-203). *)
Definition runSearch_resume (r : Response) (st : State) : State :=
  match receive r with
  | inl v => setItems v st
  | inr e => console_error e st
  end.

(** [clearSearch] after its fetch settles (lines 208-210): no try/catch. *)
Definition clearSearch_resume (r : Response) (st : State) : State :=
  match receive r with
  | inl v => setItems v st
  | inr e => escapes e st
  end.

Definition resume (op : Operation) : Response -> State -> State :=
  match op with
  | LoadAll => loadAll_resume
  | RunSearch => runSearch_resume
  | ClearSearch => clearSearch_resume
  end.

Definition pending (id : nat) (l : list (nat * Operation)) : option Operation :=
  option_map snd (find (fun p => Nat.eqb (fst p) id) l).

Definition forget (id : nat) (l : list (nat * Operation)) : list (nat * Operation) :=
  filter (fun p => negb (Nat.eqb (fst p) id)) l.

(** Fetch [id] settles with [r]. *)
Definition settle (id : nat) (r : Response) (st : State) : State :=
  match pending id (inflight st) with
  | None => st
  | Some op => resume op r (set_inflight (forget id (inflight st)) st)
  end.

(** *** Button handlers *)

Definition search_body (poly : DrawFeature) : Js.value :=
  Js.Obj [ ("polygon",
             Js.Obj [ ("type", Js.Str "Polygon");
                      ("coordinates", coordinates_value (dgeometry poly)) ]) ].

(** [runSearch] up to its first await (lines 189-200). *)
Definition runSearch (st : State) : State :=
  match drawRef st with
  | None => st
  | Some features =>
      match find is_polygon features with
      | None => st
      | Some poly => fetch RunSearch (PostJson (search_url st) (search_body poly)) st
      end
  end.

(** [drawRef.current?.deleteAll()] *)
Definition deleteAll (st : State) : State :=
  match drawRef st with
  | None => st
  | Some _ => set_draw (Some []) st
  end.

(** [clearSearch] up to its first await (lines 206-208). *)
Definition clearSearch (st : State) : State :=
  let st := deleteAll st in
  fetch ClearSearch (Get (properties_url st)) st.

(** *** Map event handlers *)

(** The 'load' handler (lines 128-161).  [geojson] is the variable of the
    render in which the first effect ran. *)
Definition onLoad (st : State) : State :=
  match mapRef st with
  | None => st
  | Some m =>
      setLoading false
        (set_map
           (Some {| styleLoaded := styleLoaded m;
                    loadClosure := loadClosure m;
                    source := Some (loadClosure m);
                    layers := layers m ++ ["clusters"; "cluster-count"; "unclustered-point"];
                    clickHandlers := clickHandlers m ++ ["clusters"; "unclustered-point"];
                    eased := eased m;
                    removed := removed m |}) st)
  end.

(** The click handler of layer 'clusters' (lines 141-148). *)
Definition onClusterClick (e : ClusterClick) (st : State) : State :=
  match mapRef st with
  | None => st
  | Some m =>
      match rendered e with
      | [] => escapes TypeError st
      | f :: _ =>
          match expansionZoom e (cluster_id f) with
          | None => st
          | Some zoom => set_map (Some (easeTo (rcoordinates f) zoom m)) st
          end
      end
  end.

(** ** The browser *)

Inductive Event : Type :=
| StyleLoaded (b : bool)                (* the style starts or finishes loading *)
| MapLoad                               (* the map fires 'load' *)
| Drawn (features : list DrawFeature)   (* the user edits the drawing *)
| ClickSearch
| ClickClear
| Settle (id : nat) (r : Response)
| ClickCluster (e : ClusterClick).

Definition live_map (st : State) : option MapSurface :=
  match mapRef st with
  | Some m => if removed m then None else Some m
  | None => None
  end.

Definition step (st : State) (ev : Event) : State :=
  match ev with
  | StyleLoaded b =>
      match live_map st with
      | Some m => set_map (Some (set_styleLoaded b m)) st
      | None => st
      end
  | MapLoad =>
      match live_map st with
      | Some m =>
          match source m with
          | Some _ => st      (* 'load' fires once, when the style is loaded *)
          | None => onLoad (set_map (Some (set_styleLoaded true m)) st)
          end
      | None => st
      end
  | Drawn features =>
      match drawRef st with
      | Some _ => if mounted st then set_draw (Some features) st else st
      | None => st
      end
  | ClickSearch => if mounted st then runSearch st else st
  | ClickClear => if mounted st then clearSearch st else st
  | Settle id r => settle id r st
  | ClickCluster e =>
      match live_map st with
      | Some m =>
          if existsb (String.eqb "clusters") (clickHandlers m)
          then onClusterClick e st
          else st
      | None => st
      end
  end.

Definition run (st : State) (evs : list Event) : State :=
  fold_left step evs st.

(** ** Vocabulary of the design document *)

Definition position_eqb (p q : Position) : bool :=
  Qeq_bool (fst p) (fst q) && Qeq_bool (snd p) (snd q).

(** A ring is closed when its last point is its first. *)
Definition ring_closed (r : list Position) : bool :=
  match r with
  | [] => false
  | p :: _ => position_eqb p (last r p)
  end.

Fixpoint distinct_vertices (r : list Position) : list Position :=
  match r with
  | [] => []
  | p :: rest =>
      if existsb (position_eqb p) rest then distinct_vertices rest
      else p :: distinct_vertices rest
  end.

Definition ring_degenerate (r : list Position) : bool :=
  Nat.ltb (List.length (distinct_vertices r)) 3.

(** The response shape [{ items: [...] }]. *)
Definition expected_shape (data : Js.value) : bool :=
  match Js.get data "items" with
  | Some (Js.Arr _) => true
  | _ => false
  end.

(** A fetch fails when control leaves the three lines of [receive] by an
    exception. *)
Definition fetch_fails (r : Response) : bool :=
  match receive r with
  | inl _ => false
  | inr _ => true
  end.

(** Nothing was reported: no console line, no uncaught error. *)
Definition silent (st : State) : Prop :=
  console st = [] /\ unhandled st = [].

(** The data the map source holds ([None] before the source exists). *)
Definition source_data (st : State) : option Js.value :=
  match mapRef st with
  | Some m => source m
  | None => None
  end.

(** The [geojson] the 'load' handler closed over. *)
Definition load_closure (st : State) : option Js.value :=
  option_map loadClosure (mapRef st).

Definition camera_moves (st : State) : list (Position * Q) :=
  match mapRef st with
  | Some m => eased m
  | None => []
  end.

(** ** Sample data *)

Definition api : option string := Some "http://localhost:8000".

Definition items_body (records : list Js.value) : Response :=
  Body (Some (Js.Obj [("items", Js.Arr records)])).

Definition id_only (id : string) : Js.value := Js.Obj [("id", Js.Str id)].

Definition record_A : PropertyRecord :=
  {| rid := "1"; rtitle := "A"; rprice := Some 100; rlocation := (0, 0) |}.

Definition record_B : PropertyRecord :=
  {| rid := "2"; rtitle := "B"; rprice := None; rlocation := (1, 1) |}.

Definition square : DrawFeature :=
  {| did := "square";
     dgeometry := Polygon [[(0, 0); (0, 1); (1, 1); (1, 0); (0, 0)]] |}.

Definition triangle : DrawFeature :=
  {| did := "triangle";
     dgeometry := Polygon [[(5, 5); (5, 6); (6, 6); (5, 5)]] |}.

Definition path : DrawFeature :=
  {| did := "path"; dgeometry := LineString [(0, 0); (2, 2)] |}.

Definition open_ring : list Position := [(0, 0); (1, 1)].

Definition open_polygon : DrawFeature :=
  {| did := "open"; dgeometry := Polygon [open_ring] |}.

(** A click on a rendered point that is no cluster; the map knows no
    expansion zoom for it. *)
Definition stray_click : ClusterClick :=
  {| rendered := [ {| cluster_id := None; rcoordinates := (3, 4) |} ];
     expansionZoom := fun id => match id with
                                | Some _ => Some 5
                                | None => None
                                end |}.

Definition cluster_click : ClusterClick :=
  {| rendered := [ {| cluster_id := Some 7%Z; rcoordinates := (3, 4) |} ];
     expansionZoom := fun id => match id with
                                | Some _ => Some 5
                                | None => None
                                end |}.

(** The component after the initial load brought [record_A]. *)
Definition loaded_with_A : State :=
  run (mount api) [Settle 0 (items_body [record_value record_A])].

(** ** The click handler of layer 'unclustered-point' (lines 150-158)

    The handler touches nothing of the component: it builds one popup and adds
    it to the map, or returns early.  It is the function from the features of
    the click event to the popup it adds. *)

(** The property values of a rendered feature are primitives. *)
Inductive Primitive : Type :=
| PUndefined
| PNull
| PBool (b : bool)
| PNum (q : Q)
| PStr (s : string).

Record RenderedPoint : Type := {
  ptitle : Primitive;            (* [feature.properties.title] *)
  pprice : Primitive;            (* [feature.properties.price] *)
  pcoordinates : Position        (* [feature.geometry.coordinates] *)
}.

Record Popup : Type := {
  closeButton : bool;
  offset : Q;
  lngLat : Position;
  html : string
}.

Definition bool_text (b : bool) : string := if b then "true" else "false".

Definition quote : string := String (Ascii.ascii_of_nat 34) EmptyString.

Section PointClick.

(** How the engine prints a number in a template literal, and how
    [toLocaleString()] prints it in the user's locale. *)
Variable number_text : Q -> string.
Variable locale_text : Q -> string.

(** [`${v}`] *)
Definition template_text (v : Primitive) : string :=
  match v with
  | PUndefined => "undefined"
  | PNull => "null"
  | PBool b => bool_text b
  | PNum q => number_text q
  | PStr s => s
  end.

(** [v?.toLocaleString?.()]; [None] is undefined. *)
Definition locale_string (v : Primitive) : option string :=
  match v with
  | PUndefined | PNull => None
  | PBool b => Some (bool_text b)
  | PNum q => Some (locale_text q)
  | PStr s => Some s
  end.

(** [price?.toLocaleString?.() || ''] *)
Definition price_text (price : Primitive) : string :=
  match locale_string price with
  | None => ""
  | Some s => if String.eqb s "" then "" else s
  end.

Definition popup_html (title price : Primitive) : string :=
  String.concat ""
    [ "<div style="; quote; "font-weight:600;color:#0B1B3B"; quote; ">";
      template_text title;
      "</div><div style="; quote; "color:#1F4AFF"; quote; ">$";
      price_text price;
      "</div>" ].

(** [features] is [e.features]: [None] when the event carries none. *)
Definition onPointClick (features : option (list RenderedPoint)) : option Popup :=
  match features with
  | None => None
  | Some [] => None
  | Some (feature :: _) =>
      Some {| closeButton := false;
              offset := 12;
              lngLat := pcoordinates feature;
              html := popup_html (ptitle feature) (pprice feature) |}
  end.

End PointClick.

(** ** Reading states and traces *)

Definition nullish (v : Js.value) : bool :=
  match v with
  | Js.Undefined | Js.Null => true
  | _ => false
  end.

(** The values [geojson] derives a collection from. *)
Definition renderable (v : Js.value) : bool :=
  match v with
  | Js.Arr ps => forallb (fun p => negb (nullish p)) ps
  | _ => negb (Js.truthy v)
  end.

(** [f.properties.id] and [f.properties.price] of a derived feature. *)
Definition feature_id (f : Js.value) : option Js.value :=
  props <- Js.get f "properties" ;;
  Js.get props "id".

Definition feature_price (f : Js.value) : option Js.value :=
  props <- Js.get f "properties" ;;
  Js.get props "price".

Definition price_is_set (f : Js.value) : bool :=
  match feature_price f with
  | Some price => negb (nullish price)
  | None => false
  end.

(** A response the component survives: the fetch fails, or what it stores
    derives a collection. *)
Definition benign (r : Response) : bool :=
  match receive r with
  | inl v => renderable v
  | inr _ => true
  end.

Definition benign_event (ev : Event) : bool :=
  match ev with
  | Settle _ r => benign r
  | _ => true
  end.

(** No fetch of the trace completes with an answer. *)
Definition settles_fail (ev : Event) : bool :=
  match ev with
  | Settle _ r => fetch_fails r
  | _ => true
  end.

Definition is_click (ev : Event) : bool :=
  match ev with
  | ClickSearch | ClickClear => true
  | _ => false
  end.

Definition clicks (evs : list Event) : nat :=
  List.length (filter is_click evs).


(** The cleanup the first effect returns, [() => map.remove()], on its own. *)
Definition cleanup (st : State) : State :=
  set_map (option_map map_remove (mapRef st)) st.

Definition handles_cluster_clicks (st : State) : bool :=
  match live_map st with
  | Some m => existsb (String.eqb "clusters") (clickHandlers m)
  | None => false
  end.

Definition style_is_loaded (st : State) : bool :=
  match mapRef st with
  | Some m => styleLoaded m
  | None => false
  end.

(** ** Proof steps *)

(** Split on every scrutinee of the goal, then close by computation. *)
Ltac case_split :=
  repeat match goal with
    | |- context [match ?x with _ => _ end] => destruct x eqn:?
    end;
  cbn;
  repeat match goal with
    | H : mapRef _ = _ |- _ => rewrite H
    end;
  cbn; try reflexivity; try congruence.

(** Split on every scrutinee and compare what is left. *)
Ltac frame :=
  repeat match goal with
    | |- context [match ?x with _ => _ end] => destruct x eqn:?
    end;
  cbn; try reflexivity; try assumption; try congruence.

(** ** Theorems about the derivation *)

Lemma feature_record_value (r : PropertyRecord) :
  exists f, feature (record_value r) = Some f /\ view f = Some (expected_view r).
Proof.
  destruct r as [i t [q|] l]; eexists; split; reflexivity.
Qed.

Lemma map_throwing_records (d : list PropertyRecord) :
  exists fs,
    map_throwing feature (map record_value d) = Some fs
    /\ map view fs = map (fun r => Some (expected_view r)) d.
Proof.
  induction d as [|r d IH].
  - exists []. split; reflexivity.
  - destruct IH as [fs [Hfs Hview]].
    destruct (feature_record_value r) as [f [Hf Hv]].
    exists (f :: fs). split.
    + cbn [map map_throwing]. rewrite Hf. cbn [bind]. rewrite Hfs. reflexivity.
    + cbn [map]. rewrite Hv, Hview. reflexivity.
Qed.

(** C3. For every dataset [d] of property records the derivation returns a
    value whose [type] is FeatureCollection and whose [features] member is an
    array of exactly [length d] features, in the order of [d]; the feature at
    each position carries the id and the title of the record at that
    position, the record's location as geometry, and the record's price, or
    the empty string when the record has none. *)
Theorem geojson_one_feature_per_record (d : list PropertyRecord) :
  exists g fs,
    geojson (dataset_value d) = Some g
    /\ g = feature_collection fs
    /\ Js.get g "type" = Some (Js.Str "FeatureCollection")
    /\ Js.get g "features" = Some (Js.Arr fs)
    /\ List.length fs = List.length d
    /\ map view fs = map (fun r => Some (expected_view r)) d.
Proof.
  destruct (map_throwing_records d) as [fs [Hfs Hview]].
  exists (feature_collection fs), fs. split; [|split; [|split; [|split; [|split]]]].
  - unfold geojson, dataset_value. cbn [Js.or_else Js.truthy].
    rewrite Hfs. reflexivity.
  - reflexivity.
  - reflexivity.
  - reflexivity.
  - rewrite <- (length_map view fs), Hview. apply length_map.
  - exact Hview.
Qed.

(** The scenario of the design document: two records, the second without a
    price. *)
Example geojson_scenario :
  option_map (fun g => Js.get g "features") (geojson (dataset_value [record_A; record_B]))
  = Some (Some (Js.Arr
      [ Js.Obj [ ("type", Js.Str "Feature");
                 ("properties", Js.Obj [("id", Js.Str "1"); ("title", Js.Str "A");
                                        ("price", Js.Num 100)]);
                 ("geometry", point_value (0, 0)) ];
        Js.Obj [ ("type", Js.Str "Feature");
                 ("properties", Js.Obj [("id", Js.Str "2"); ("title", Js.Str "B");
                                        ("price", Js.Str "")]);
                 ("geometry", point_value (1, 1)) ] ])).
Proof. reflexivity. Qed.

(** ** What a state setter touches *)

Lemma sync_source_fields (g : Js.value) (st : State) :
  items (sync_source g st) = items st
  /\ network (sync_source g st) = network st
  /\ inflight (sync_source g st) = inflight st
  /\ console (sync_source g st) = console st
  /\ unhandled (sync_source g st) = unhandled st
  /\ mounted (sync_source g st) = mounted st.
Proof.
  unfold sync_source.
  destruct (mapRef st) as [m|]; [|now repeat split].
  destruct (styleLoaded m); [|now repeat split].
  destruct (source m); now repeat split.
Qed.

Lemma rerender_items (st : State) : items (rerender st) = items st.
Proof.
  unfold rerender. destruct (geojson (items st)) as [g|].
  - apply sync_source_fields.
  - reflexivity.
Qed.

Lemma rerender_console (st : State) : console (rerender st) = console st.
Proof.
  unfold rerender. destruct (geojson (items st)) as [g|].
  - apply sync_source_fields.
  - reflexivity.
Qed.

Lemma setItems_items (v : Js.value) (st : State) :
  mounted st = true -> items (setItems v st) = v.
Proof.
  intros Hm. unfold setItems. rewrite Hm. now rewrite rerender_items.
Qed.

Lemma setItems_console (v : Js.value) (st : State) :
  console (setItems v st) = console st.
Proof.
  unfold setItems. destruct (mounted st); [|reflexivity].
  now rewrite rerender_console.
Qed.

Lemma run_snoc (st : State) (evs : list Event) (ev : Event) :
  run st (evs ++ [ev]) = step (run st evs) ev.
Proof. unfold run. now rewrite fold_left_app. Qed.

(** ** Completion order *)

Lemma settle_success_items (st : State) (id : nat) (op : Operation) (data v : Js.value) :
  mounted st = true ->
  pending id (inflight st) = Some op ->
  Js.get data "items" = Some v ->
  items (settle id (Body (Some data)) st) = Js.or_else v (Js.Arr []).
Proof.
  intros Hm Hp Hv. unfold settle. rewrite Hp.
  destruct op; cbn [resume];
    unfold loadAll_resume, runSearch_resume, clearSearch_resume, receive;
    rewrite Hv; now apply setItems_items.
Qed.

(** C1. Whatever happened before and in whatever order the fetches were
    issued, when a pending fetch completes with a response that carries
    [items], the dataset becomes exactly that result: the fetch that completes
    last decides the dataset. *)
Theorem last_completion_wins
    (st : State) (evs : list Event) (id : nat) (op : Operation) (data v : Js.value) :
  mounted (run st evs) = true ->
  pending id (inflight (run st evs)) = Some op ->
  Js.get data "items" = Some v ->
  items (run st (evs ++ [Settle id (Body (Some data))])) = Js.or_else v (Js.Arr []).
Proof.
  intros Hm Hp Hv. rewrite run_snoc. cbn [step].
  now apply settle_success_items with (op := op).
Qed.

(** Q1 then Q2 are issued; Q2 completes first with x, Q1 second with y, and
    nothing is in flight afterwards. *)
Lemma last_completion_wins_scenario :
  let issued := [Settle 0 (items_body [record_value record_A]);
                 Drawn [square]; ClickSearch; Drawn [triangle]; ClickSearch;
                 Settle 2 (items_body [id_only "x"])] in
  mounted (run (mount api) issued) = true
  /\ pending 1 (inflight (run (mount api) issued)) = Some RunSearch
  /\ items (run (mount api) issued) = Js.Arr [id_only "x"]
  /\ items (run (mount api) (issued ++ [Settle 1 (items_body [id_only "y"])]))
     = Js.Arr [id_only "y"]
  /\ inflight (run (mount api) (issued ++ [Settle 1 (items_body [id_only "y"])])) = [].
Proof.
  cbv zeta. split; [reflexivity|]. split; [reflexivity|]. split; [reflexivity|].
  split; [|reflexivity].
  apply (last_completion_wins (mount api)
           [Settle 0 (items_body [record_value record_A]);
            Drawn [square]; ClickSearch; Drawn [triangle]; ClickSearch;
            Settle 2 (items_body [id_only "x"])]
           1 RunSearch
           (Js.Obj [("items", Js.Arr [id_only "y"])]) (Js.Arr [id_only "y"]));
    reflexivity.
Defined.

(** ** Failing fetches *)

Lemma guarded_failure_is_logged (st : State) (id : nat) (op : Operation) (r : Response) (e : JsError) :
  pending id (inflight st) = Some op ->
  op <> ClearSearch ->
  receive r = inr e ->
  console (settle id r st) = console st ++ [e]
  /\ unhandled (settle id r st) = unhandled st
  /\ items (settle id r st) = items st.
Proof.
  intros Hp Hop Hr. unfold settle. rewrite Hp.
  destruct op; try congruence; cbn [resume];
    unfold loadAll_resume, runSearch_resume; rewrite Hr; now repeat split.
Qed.

Lemma clearSearch_failure_is_not_caught (st : State) (id : nat) (r : Response) (e : JsError) :
  pending id (inflight st) = Some ClearSearch ->
  receive r = inr e ->
  console (settle id r st) = console st
  /\ unhandled (settle id r st) = unhandled st ++ [e]
  /\ items (settle id r st) = items st.
Proof.
  intros Hp Hr. unfold settle. rewrite Hp. cbn [resume].
  unfold clearSearch_resume. rewrite Hr. now repeat split.
Qed.

(** C2, the failing input. After the initial load brought one record, Clear is
    clicked and its fetch fails, by a transport failure or by a body that is
    not JSON: nothing is logged and the error leaves [clearSearch] as an
    unhandled rejection.  The dataset keeps its value. *)
Theorem clearSearch_error_escapes :
  let transport := run loaded_with_A [ClickClear; Settle 1 NetworkFailure] in
  let garbled := run loaded_with_A [ClickClear; Settle 1 (Body None)] in
  console transport = [] /\ unhandled transport = [FetchRejected]
  /\ items transport = items loaded_with_A
  /\ console garbled = [] /\ unhandled garbled = [BodyNotJson]
  /\ items garbled = items loaded_with_A.
Proof. cbv zeta. repeat split; reflexivity. Qed.

(** ** The map source and the 'load' handler *)

Lemma closure_sync_source (g : Js.value) (st : State) :
  load_closure (sync_source g st) = load_closure st.
Proof. unfold load_closure, sync_source. case_split. Qed.

Lemma closure_unmount (st : State) :
  load_closure (unmount st) = load_closure st.
Proof. unfold load_closure, unmount. cbn. now destruct (mapRef st). Qed.

Lemma closure_setItems (v : Js.value) (st : State) :
  load_closure (setItems v st) = load_closure st.
Proof.
  unfold setItems. destruct (mounted st); [|reflexivity].
  unfold rerender. destruct (geojson (items (set_items v st))).
  - now rewrite closure_sync_source.
  - now rewrite closure_unmount.
Qed.

Lemma closure_settle (id : nat) (r : Response) (st : State) :
  load_closure (settle id r st) = load_closure st.
Proof.
  unfold settle. destruct (pending id (inflight st)) as [op|]; [|reflexivity].
  destruct op; cbn [resume];
    unfold loadAll_resume, runSearch_resume, clearSearch_resume;
    destruct (receive r); try (now rewrite closure_setItems); reflexivity.
Qed.

Lemma live_map_some (st : State) (m : MapSurface) :
  live_map st = Some m -> mapRef st = Some m /\ removed m = false.
Proof.
  unfold live_map. destruct (mapRef st) as [m'|]; [|discriminate].
  destruct (removed m') eqn:Hr; [discriminate|].
  intros H. injection H as <-. now split.
Qed.

Lemma closure_step (st : State) (ev : Event) :
  load_closure (step st ev) = load_closure st.
Proof.
  destruct ev; cbn [step];
    try (destruct (live_map st) as [m|] eqn:Hlive;
         [apply live_map_some in Hlive as [Hmap _]|reflexivity]).
  - unfold load_closure. cbn. now rewrite Hmap.
  - destruct (source m); [reflexivity|].
    unfold load_closure, onLoad, setLoading. cbn.
    rewrite Hmap. now destruct (mounted st).
  - unfold load_closure. case_split.
  - unfold load_closure, runSearch. case_split.
  - unfold load_closure, clearSearch, deleteAll. case_split.
  - apply closure_settle.
  - destruct (existsb _ _); [|reflexivity].
    unfold load_closure, onClusterClick. rewrite Hmap. case_split.
Qed.

Lemma closure_run (st : State) (evs : list Event) :
  load_closure (run st evs) = load_closure st.
Proof.
  revert st. induction evs as [|ev evs IH]; intros st; [reflexivity|].
  change (load_closure (run (step st ev) evs) = load_closure st).
  rewrite IH. apply closure_step.
Qed.

(** Whatever the fetches brought before the map fired 'load', the source is
    created with the collection of the first render, the empty one. *)
Lemma load_starts_from_first_render (url : option string) (evs : list Event) :
  source_data (run (mount url) evs) = None ->
  source_data (run (mount url) (evs ++ [MapLoad])) = None
  \/ source_data (run (mount url) (evs ++ [MapLoad])) = Some (feature_collection []).
Proof.
  intros Hnone. rewrite run_snoc.
  pose proof (closure_run (mount url) evs) as Hc.
  set (st := run (mount url) evs) in *.
  unfold source_data, load_closure in *. cbn in Hc. cbn [step]. unfold live_map.
  destruct (mapRef st) as [m|] eqn:Hmap; [|left; now rewrite Hmap].
  cbn in Hc. injection Hc as Hc.
  destruct (removed m); [left; now rewrite Hmap|].
  rewrite Hnone. right.
  unfold onLoad, setLoading. cbn. rewrite Hc.
  destruct (mounted st); reflexivity.
Qed.

(** C4, the failing input. The initial fetch completes before the map fires
    'load'.  The dataset holds [record_A] and derives to one feature, the
    second effect ran while the map was not ready and returned, and 'load'
    then created the source with the empty collection of the first render.
    Later readiness changes do not repair it: the update is lost. *)
Theorem update_before_load_is_lost :
  let before := run (mount api) [Settle 0 (items_body [record_value record_A])] in
  let after := run before [MapLoad] in
  let later := run after [StyleLoaded false; StyleLoaded true] in
  items before = dataset_value [record_A]
  /\ source_data before = None
  /\ items after = dataset_value [record_A]
  /\ option_map (fun g => Js.get g "features") (geojson (items after))
     = option_map (fun g => Js.get g "features")
         (Some (feature_collection
                  [Js.Obj [ ("type", Js.Str "Feature");
                            ("properties", Js.Obj [("id", Js.Str "1"); ("title", Js.Str "A");
                                                   ("price", Js.Num 100)]);
                            ("geometry", point_value (0, 0)) ]]))
  /\ source_data after = Some (feature_collection [])
  /\ source_data later = Some (feature_collection []).
Proof. cbv zeta. repeat split; reflexivity. Qed.

(** ** Search *)

(** C7. When the draw control holds no Polygon (or does not exist yet),
    [runSearch] returns at once: the whole state, the dataset and the list of
    requests included, is what it was. *)
Theorem runSearch_without_polygon_is_noop (st : State) :
  (forall features, drawRef st = Some features -> find is_polygon features = None) ->
  runSearch st = st
  /\ step st ClickSearch = st
  /\ items (step st ClickSearch) = items st
  /\ network (step st ClickSearch) = network st.
Proof.
  intros H.
  assert (Hrun : runSearch st = st).
  { unfold runSearch. destruct (drawRef st) as [features|]; [|reflexivity].
    now rewrite (H features eq_refl). }
  assert (Hstep : step st ClickSearch = st).
  { cbn [step]. now destruct (mounted st). }
  rewrite Hstep. now repeat split.
Qed.

Lemma runSearch_without_polygon_is_noop_witness :
  (forall features, drawRef (run loaded_with_A [Drawn [path]]) = Some features ->
                    find is_polygon features = None)
  /\ network (step (run loaded_with_A [Drawn [path]]) ClickSearch)
     = [Get "http://localhost:8000/api/properties"]
  /\ items (step (run loaded_with_A [Drawn [path]]) ClickSearch) = dataset_value [record_A].
Proof.
  assert (H : forall features,
             drawRef (run loaded_with_A [Drawn [path]]) = Some features ->
             find is_polygon features = None).
  { intros features Hf. injection Hf as <-. reflexivity. }
  split; [exact H|].
  destruct (runSearch_without_polygon_is_noop (run loaded_with_A [Drawn [path]]) H)
    as [_ [_ [Hitems Hnet]]].
  split.
  - rewrite Hnet. reflexivity.
  - rewrite Hitems. reflexivity.
Defined.

Lemma find_skips_prefix {A : Type} (f : A -> bool) (before : list A) (x : A) (after : list A) :
  forallb (fun a => negb (f a)) before = true ->
  f x = true ->
  find f (before ++ x :: after) = Some x.
Proof.
  intros Hb Hx. induction before as [|a before IH]; cbn.
  - now rewrite Hx.
  - cbn in Hb. apply andb_prop in Hb as [Ha Hb].
    apply negb_true_iff in Ha. rewrite Ha. now apply IH.
Qed.

(** C10. When the drawn collection is [before ++ poly :: after], no geometry
    of [before] is a Polygon and [poly] is one, with rings [rings],
    [runSearch] issues exactly one request: the POST to the search endpoint
    whose body is [{polygon: {type: 'Polygon', coordinates}}] with [rings],
    the coordinates of [poly], as coordinates.  Neither [before] nor [after]
    shows in the request or anywhere in the resulting state. *)
Theorem runSearch_uses_first_polygon
    (st : State) (before : list DrawFeature) (poly : DrawFeature) (after : list DrawFeature) :
  drawRef st = Some (before ++ poly :: after) ->
  forallb (fun g => negb (is_polygon g)) before = true ->
  is_polygon poly = true ->
  exists rings,
    dgeometry poly = Polygon rings
    /\ network (runSearch st)
       = network st
         ++ [PostJson (String.append (backend_text st) "/api/properties/search")
               (Js.Obj [("polygon",
                         Js.Obj [("type", Js.Str "Polygon");
                                 ("coordinates", Js.Arr (map ring_value rings))])])]
    /\ inflight (runSearch st) = inflight st ++ [(List.length (network st), RunSearch)]
    /\ items (runSearch st) = items st
    /\ drawRef (runSearch st) = drawRef st
    /\ mapRef (runSearch st) = mapRef st
    /\ console (runSearch st) = console st
    /\ unhandled (runSearch st) = unhandled st.
Proof.
  intros Hd Hb Hp.
  assert (Hrings : exists rings, dgeometry poly = Polygon rings).
  { unfold is_polygon in Hp. destruct (dgeometry poly) as [p|ps|rings];
      cbn in Hp; try discriminate. now exists rings. }
  destruct Hrings as [rings Hrings]. exists rings. split; [exact Hrings|].
  unfold runSearch. rewrite Hd.
  rewrite (find_skips_prefix is_polygon before poly after Hb Hp).
  unfold search_body, search_url. rewrite Hrings. cbn.
  now repeat split.
Qed.

Lemma runSearch_uses_first_polygon_witness :
  network (runSearch (run loaded_with_A [Drawn [path; triangle; square]]))
  = [ Get "http://localhost:8000/api/properties";
      PostJson "http://localhost:8000/api/properties/search"
        (Js.Obj
           [("polygon",
             Js.Obj
               [("type", Js.Str "Polygon");
                ("coordinates",
                 Js.Arr [Js.Arr [Js.Arr [Js.Num 5; Js.Num 5];
                                 Js.Arr [Js.Num 5; Js.Num 6];
                                 Js.Arr [Js.Num 6; Js.Num 6];
                                 Js.Arr [Js.Num 5; Js.Num 5]]])])]) ].
Proof.
  destruct (runSearch_uses_first_polygon
              (run loaded_with_A [Drawn [path; triangle; square]])
              [path] triangle [square] eq_refl eq_refl eq_refl)
    as [rings [Hrings [Hnet _]]].
  injection Hrings as <-.
  rewrite Hnet. reflexivity.
Defined.

(** C5 as stated fails. The drawn polygon has a single ring of two points: it
    is open and has fewer than three distinct vertices; Search posts it. *)
Lemma open_polygon_is_requested :
  ring_closed open_ring = false
  /\ ring_degenerate open_ring = true
  /\ dgeometry open_polygon = Polygon [open_ring]
  /\ network (run loaded_with_A [Drawn [open_polygon]])
     = [Get "http://localhost:8000/api/properties"]
  /\ network (run loaded_with_A [Drawn [open_polygon]; ClickSearch])
     = [ Get "http://localhost:8000/api/properties";
         PostJson "http://localhost:8000/api/properties/search"
           (Js.Obj [("polygon",
                     Js.Obj [("type", Js.Str "Polygon");
                             ("coordinates",
                              Js.Arr [Js.Arr [Js.Arr [Js.Num 0; Js.Num 0];
                                              Js.Arr [Js.Num 1; Js.Num 1]]])])]) ].
Proof. repeat split; reflexivity. Qed.

(** C5, amended. Whatever rings the first drawn Polygon has, closed or open,
    with any number of vertices, [runSearch] issues the search request with
    those rings as its coordinates: the component does not inspect them. *)
Theorem runSearch_sends_rings_as_drawn
    (st : State) (features : list DrawFeature) (poly : DrawFeature)
    (rings : list (list Position)) :
  drawRef st = Some features ->
  find is_polygon features = Some poly ->
  dgeometry poly = Polygon rings ->
  network (runSearch st)
  = network st
    ++ [PostJson (search_url st)
          (Js.Obj [("polygon",
                    Js.Obj [("type", Js.Str "Polygon");
                            ("coordinates", Js.Arr (map ring_value rings))])])].
Proof.
  intros Hd Hf Hg. unfold runSearch. rewrite Hd, Hf.
  unfold search_body. rewrite Hg. reflexivity.
Qed.

Lemma runSearch_sends_rings_as_drawn_witness :
  network (runSearch (run loaded_with_A [Drawn [path; open_polygon]]))
  = [ Get "http://localhost:8000/api/properties";
      PostJson "http://localhost:8000/api/properties/search"
        (Js.Obj [("polygon",
                  Js.Obj [("type", Js.Str "Polygon");
                          ("coordinates", Js.Arr (map ring_value [open_ring]))])]) ].
Proof.
  rewrite (runSearch_sends_rings_as_drawn
             (run loaded_with_A [Drawn [path; open_polygon]])
             [path; open_polygon] open_polygon [open_ring] eq_refl eq_refl eq_refl).
  reflexivity.
Defined.

(** ** Responses that do not decode *)

Lemma fetch_fails_cases (r : Response) :
  fetch_fails r = true
  <-> r = NetworkFailure \/ r = Body None
      \/ r = Body (Some Js.Null) \/ r = Body (Some Js.Undefined).
Proof.
  split.
  - destruct r as [|[data|]]; auto.
    destruct data; cbn; try discriminate; auto.
  - intros [-> | [-> | [-> | ->]]]; reflexivity.
Qed.

Lemma failed_settle_items (st : State) (id : nat) (r : Response) :
  fetch_fails r = true -> items (settle id r st) = items st.
Proof.
  unfold fetch_fails, settle. intros Hf.
  destruct (pending id (inflight st)) as [op|]; [|reflexivity].
  destruct op; cbn [resume];
    unfold loadAll_resume, runSearch_resume, clearSearch_resume;
    destruct (receive r); try discriminate; reflexivity.
Qed.

(** C6 as stated fails. The body [{}] is JSON without [items], not of the
    expected shape; the unfiltered fetch of Clear and the filtered fetch of
    Search both replace the dataset [record_A] by the empty one. *)
Lemma body_without_items_empties_dataset :
  expected_shape (Js.Obj []) = false
  /\ items loaded_with_A = dataset_value [record_A]
  /\ items (run loaded_with_A [ClickClear; Settle 1 (Body (Some (Js.Obj [])))]) = Js.Arr []
  /\ items (run loaded_with_A
              [Drawn [square]; ClickSearch; Settle 1 (Body (Some (Js.Obj [])))]) = Js.Arr [].
Proof. repeat split; reflexivity. Qed.

(** C6, amended. A fetch that fails in transport, whose body is not JSON, or
    whose JSON body is null leaves the dataset as it was, for the initial
    load, Search and Clear alike.  A JSON body that is not null and whose
    [items] member is missing or falsy is taken as an answer: the dataset
    becomes the empty sequence. *)
Theorem undecodable_response_keeps_dataset :
  (forall (st : State) (id : nat) (r : Response),
      fetch_fails r = true -> items (settle id r st) = items st)
  /\ (forall (st : State) (id : nat) (op : Operation) (data v : Js.value),
         mounted st = true ->
         pending id (inflight st) = Some op ->
         Js.get data "items" = Some v ->
         Js.truthy v = false ->
         items (settle id (Body (Some data)) st) = Js.Arr []).
Proof.
  split.
  - exact failed_settle_items.
  - intros st id op data v Hm Hp Hv Ht.
    rewrite (settle_success_items st id op data v Hm Hp Hv).
    unfold Js.or_else. now rewrite Ht.
Qed.

Lemma undecodable_response_keeps_dataset_witness :
  items (settle 1 (Body None) (run loaded_with_A [Drawn [square]; ClickSearch]))
  = dataset_value [record_A]
  /\ items (settle 1 (Body (Some (Js.Obj [("total", Js.Num 0)])))
              (run loaded_with_A [ClickClear]))
     = Js.Arr [].
Proof.
  split.
  - rewrite (proj1 undecodable_response_keeps_dataset
               (run loaded_with_A [Drawn [square]; ClickSearch]) 1%nat (Body None) eq_refl).
    reflexivity.
  - exact (proj2 undecodable_response_keeps_dataset
             (run loaded_with_A [ClickClear]) 1%nat ClearSearch
             (Js.Obj [("total", Js.Num 0)]) Js.Undefined
             eq_refl eq_refl eq_refl eq_refl).
Defined.

(** ** Cluster clicks *)

(** The handler does move the camera when the map knows the zoom. *)
Example cluster_click_zooms :
  camera_moves (run loaded_with_A [MapLoad; ClickCluster cluster_click]) = [((3, 4), 5)].
Proof. reflexivity. Qed.

(** The handler reads [features[0].properties] unguarded: with an empty answer
    of [queryRenderedFeatures] it would throw.  The map calls a layer click
    handler only when that answer holds a feature, which is the first
    hypothesis below. *)
Example cluster_click_on_nothing_throws :
  unhandled (run loaded_with_A
               [MapLoad; ClickCluster {| rendered := []; expansionZoom := fun _ => None |}])
  = [TypeError].
Proof. reflexivity. Qed.

(** C8. On a click on layer 'clusters' whose first rendered feature is [f],
    if the map answers the expansion-zoom query for [f]'s cluster id with an
    error (as it does for a feature without one), the handler returns without
    effect: the state is unchanged, so nothing was thrown and the camera was
    not moved. *)
Theorem cluster_lookup_error_is_noop
    (st : State) (e : ClusterClick) (f : RenderedFeature) (rest : list RenderedFeature) :
  rendered e = f :: rest ->
  expansionZoom e (cluster_id f) = None ->
  step st (ClickCluster e) = st
  /\ unhandled (step st (ClickCluster e)) = unhandled st
  /\ camera_moves (step st (ClickCluster e)) = camera_moves st.
Proof.
  intros Hr Hz.
  assert (H : step st (ClickCluster e) = st).
  { cbn [step]. destruct (live_map st) as [m|]; [|reflexivity].
    destruct (existsb _ _); [|reflexivity].
    unfold onClusterClick. destruct (mapRef st); [|reflexivity].
    now rewrite Hr, Hz. }
  rewrite H. now repeat split.
Qed.

Lemma cluster_lookup_error_is_noop_witness :
  existsb (String.eqb "clusters")
    (match mapRef (run loaded_with_A [MapLoad]) with
     | Some m => clickHandlers m
     | None => []
     end) = true
  /\ cluster_id {| cluster_id := None; rcoordinates := (3, 4) |} = None
  /\ unhandled (step (run loaded_with_A [MapLoad]) (ClickCluster stray_click)) = []
  /\ camera_moves (step (run loaded_with_A [MapLoad]) (ClickCluster stray_click)) = [].
Proof.
  split; [reflexivity|]. split; [reflexivity|].
  destruct (cluster_lookup_error_is_noop (run loaded_with_A [MapLoad]) stray_click
              {| cluster_id := None; rcoordinates := (3, 4) |} [] eq_refl eq_refl)
    as [_ [Hu Hc]].
  rewrite Hu, Hc. split; reflexivity.
Defined.

(** ** Configuration *)

(** C9 as stated fails. Without a backend URL the component mounts as usual:
    nothing is logged or thrown, and the initial request leaves for a URL
    that starts with the text undefined.  The absence shows only when that
    fetch fails. *)
Lemma absent_backend_surfaces_at_fetch :
  backend (mount None) = None
  /\ mounted (mount None) = true
  /\ silent (mount None)
  /\ network (mount None) = [Get "undefined/api/properties"]
  /\ console (run (mount None) [Settle 0 (Body None)]) = [BodyNotJson].
Proof. repeat split; reflexivity. Qed.

(** C9, amended. An absent backend URL is not checked anywhere: mounting
    reports nothing and sends the initial request to
    undefined/api/properties, and Clear and Search send theirs to
    undefined/api/properties and undefined/api/properties/search. *)
Theorem absent_backend_is_interpolated :
  silent (mount None)
  /\ network (mount None) = [Get "undefined/api/properties"]
  /\ (forall st : State,
         backend st = None ->
         network (clearSearch st) = network st ++ [Get "undefined/api/properties"]
         /\ (forall (features : list DrawFeature) (poly : DrawFeature),
                drawRef st = Some features ->
                find is_polygon features = Some poly ->
                network (runSearch st)
                = network st
                  ++ [PostJson "undefined/api/properties/search" (search_body poly)])).
Proof.
  split; [split; reflexivity|]. split; [reflexivity|].
  intros st Hb. split.
  - unfold clearSearch, deleteAll, properties_url, backend_text.
    destruct (drawRef st); cbn; now rewrite Hb.
  - intros features poly Hd Hf. unfold runSearch. rewrite Hd, Hf.
    unfold search_url, backend_text. cbn. now rewrite Hb.
Qed.

Lemma absent_backend_is_interpolated_witness :
  network (clearSearch (mount None))
  = [Get "undefined/api/properties"; Get "undefined/api/properties"]
  /\ network (runSearch (run (mount None) [Drawn [square]]))
     = [ Get "undefined/api/properties";
         PostJson "undefined/api/properties/search" (search_body square) ].
Proof.
  split.
  - rewrite (proj1 (proj2 (proj2 absent_backend_is_interpolated) (mount None) eq_refl)).
    reflexivity.
  - rewrite (proj2 (proj2 (proj2 absent_backend_is_interpolated)
                      (run (mount None) [Drawn [square]]) eq_refl)
               [square] square eq_refl eq_refl).
    reflexivity.
Defined.

(** ** Which values derive a collection *)

Lemma feature_throws_iff (p : Js.value) :
  feature p = None <-> nullish p = true.
Proof. destruct p; cbn; split; congruence. Qed.

Lemma map_throwing_feature (ps : list Js.value) :
  (exists fs, map_throwing feature ps = Some fs)
  <-> forallb (fun p => negb (nullish p)) ps = true.
Proof.
  induction ps as [|p ps IH]; cbn [map_throwing forallb].
  - split; [reflexivity|]. intros _. now exists [].
  - destruct (feature p) as [f|] eqn:Hf; cbn [bind].
    + assert (Hp : nullish p = false).
      { destruct (nullish p) eqn:Hn; [|reflexivity].
        apply feature_throws_iff in Hn. congruence. }
      rewrite Hp. cbn [negb andb].
      destruct (map_throwing feature ps) as [fs|]; cbn [bind].
      * split; [intros _; apply IH; now exists fs|]. intros _. now eexists.
      * split; [intros [fs Hfs]; discriminate|].
        intros H. apply IH in H as [fs Hfs]. discriminate.
    + apply feature_throws_iff in Hf. rewrite Hf. cbn [negb andb].
      split; [intros [fs Hfs]; discriminate|discriminate].
Qed.

(** X1. [geojson] derives a collection exactly from the renderable values:
    an array none of whose elements is null or undefined, or a falsy value
    (which [items || []] replaces by the empty array).  On anything else, a
    truthy non-array or an array holding null, the render throws. *)
Theorem geojson_defined_iff (v : Js.value) :
  (exists g, geojson v = Some g) <-> renderable v = true.
Proof.
  unfold geojson, Js.or_else.
  destruct v as [| |b|q|s|ps|fields]; cbn [Js.truthy renderable negb].
  - split; [reflexivity|]. intros _. now eexists.
  - split; [reflexivity|]. intros _. now eexists.
  - destruct b; cbn; split; try discriminate; try reflexivity.
    + intros [g Hg]. discriminate.
    + intros _. now eexists.
  - destruct (Qeq_bool q 0); cbn; split; try discriminate; try reflexivity.
    + intros _. now eexists.
    + intros [g Hg]. discriminate.
  - destruct (String.eqb s ""); cbn; split; try discriminate; try reflexivity.
    + intros _. now eexists.
    + intros [g Hg]. discriminate.
  - rewrite <- map_throwing_feature. split.
    + intros [g Hg]. destruct (map_throwing feature ps) as [fs|]; [now exists fs|discriminate].
    + intros [fs Hfs]. rewrite Hfs. now eexists.
  - split; [intros [g Hg]; discriminate|discriminate].
Qed.

Lemma geojson_defined_iff_witness :
  (exists g, geojson (Js.Arr [Js.Num 5; Js.Str "x"; Js.Obj []]) = Some g)
  /\ renderable (Js.Arr [Js.Obj []; Js.Null]) = false
  /\ renderable (Js.Num 5) = false.
Proof.
  split; [|split; reflexivity].
  exact (proj2 (geojson_defined_iff (Js.Arr [Js.Num 5; Js.Str "x"; Js.Obj []])) eq_refl).
Defined.

Lemma feature_id_price (p f : Js.value) :
  feature p = Some f ->
  feature_id f = Js.get p "id" /\ price_is_set f = true.
Proof.
  destruct p as [| |b|q|s|ps|fields]; cbn; intros H; try discriminate;
    injection H as <-; cbn; split; try reflexivity.
  unfold price_is_set, feature_price. cbn.
  now destruct (Js.assoc "price" fields).
Qed.

Lemma map_throwing_features (ps fs : list Js.value) :
  map_throwing feature ps = Some fs ->
  List.length fs = List.length ps
  /\ map feature_id fs = map (fun p => Js.get p "id") ps
  /\ forallb price_is_set fs = true.
Proof.
  revert fs. induction ps as [|p ps IH]; cbn [map_throwing]; intros fs H.
  - injection H as <-. now repeat split.
  - destruct (feature p) as [f|] eqn:Hf; cbn [bind] in H; [|discriminate].
    destruct (map_throwing feature ps) as [fs'|]; cbn [bind] in H; [|discriminate].
    injection H as <-.
    destruct (IH fs' eq_refl) as [Hlen [Hid Hprice]].
    destruct (feature_id_price p f Hf) as [Hfid Hfprice].
    cbn. rewrite Hlen, Hid, Hfid, Hfprice, Hprice. now repeat split.
Qed.

(** X2. Whatever JSON array the backend sent, when the derivation succeeds
    the [features] member of its result is an array with one feature per
    element, in order (the ids read off the features are the ids read off the
    elements), and no feature carries a null or undefined price: [?? ''] has
    replaced it. *)
Theorem geojson_of_any_array (ps : list Js.value) (g : Js.value) :
  geojson (Js.Arr ps) = Some g ->
  exists fs,
    Js.get g "type" = Some (Js.Str "FeatureCollection")
    /\ Js.get g "features" = Some (Js.Arr fs)
    /\ List.length fs = List.length ps
    /\ map feature_id fs = map (fun p => Js.get p "id") ps
    /\ forallb price_is_set fs = true.
Proof.
  unfold geojson. cbn [Js.or_else Js.truthy].
  destruct (map_throwing feature ps) as [fs|] eqn:Hfs; cbn [bind]; [|discriminate].
  intros H. injection H as <-. exists fs.
  split; [reflexivity|]. split; [reflexivity|].
  now apply map_throwing_features.
Qed.

(** Three elements of different kinds: ids 9, b and none, in that order, and
    the prices null, 3 and none. *)
Lemma geojson_of_any_array_witness :
  exists g fs,
    geojson (Js.Arr [ Js.Obj [("id", Js.Num 9); ("price", Js.Null)];
                      Js.Obj [("price", Js.Num 3); ("id", Js.Str "b")];
                      Js.Str "c" ]) = Some g
    /\ Js.get g "features" = Some (Js.Arr fs)
    /\ List.length fs = 3%nat
    /\ map feature_id fs = [Some (Js.Num 9); Some (Js.Str "b"); Some Js.Undefined]
    /\ map feature_price fs = [Some (Js.Str ""); Some (Js.Num 3); Some (Js.Str "")].
Proof.
  destruct (geojson_of_any_array
              [ Js.Obj [("id", Js.Num 9); ("price", Js.Null)];
                Js.Obj [("price", Js.Num 3); ("id", Js.Str "b")];
                Js.Str "c" ] _ eq_refl)
    as [fs [_ [Hget [Hlen [Hid _]]]]].
  eexists. exists fs. split; [reflexivity|].
  split; [exact Hget|]. split; [exact Hlen|]. split; [exact Hid|].
  cbn in Hget. injection Hget as <-. reflexivity.
Defined.

(** ** Invariants of the running component *)

Lemma run_invariant (P : State -> Prop) :
  (forall st ev, P st -> P (step st ev)) ->
  forall st evs, P st -> P (run st evs).
Proof.
  intros Hstep st evs. revert st.
  induction evs as [|ev evs IH]; intros st H; [exact H|].
  change (P (run (step st ev) evs)). apply IH. now apply Hstep.
Qed.

Lemma settle_items_cases (id : nat) (r : Response) (st : State) :
  items (settle id r st) = items st
  \/ exists v, receive r = inl v /\ items (settle id r st) = v.
Proof.
  unfold settle. destruct (pending id (inflight st)) as [op|]; [|now left].
  destruct op; cbn [resume];
    unfold loadAll_resume, runSearch_resume, clearSearch_resume;
    destruct (receive r) as [v|e]; try (now left);
    unfold setItems; cbn [mounted set_inflight];
    (destruct (mounted st); [|now left]);
    right; exists v; rewrite rerender_items; now split.
Qed.

Lemma step_items_unless_settle (st : State) (ev : Event) :
  (forall id r, ev <> Settle id r) -> items (step st ev) = items st.
Proof.
  intros Hne. destruct ev; cbn [step];
    try (exfalso; eapply Hne; reflexivity);
    unfold onLoad, setLoading, runSearch, clearSearch, deleteAll, onClusterClick;
    frame.
Qed.

Lemma receive_truthy (r : Response) (v : Js.value) :
  receive r = inl v -> Js.truthy v = true.
Proof.
  destruct r as [|[data|]]; cbn; try discriminate.
  destruct (Js.get data "items") as [x|]; [|discriminate].
  intros H. injection H as <-. unfold Js.or_else.
  now destruct (Js.truthy x) eqn:Hx.
Qed.

(** X3. Whatever the user does and whatever the backend answers, the [items]
    state is never falsy: it starts as [[]] and every store goes through
    [data.items || []].  The [items || []] fallback of [geojson] is therefore
    never taken. *)
Theorem items_always_truthy (url : option string) (evs : list Event) :
  Js.truthy (items (run (mount url) evs)) = true.
Proof.
  apply (run_invariant (fun st => Js.truthy (items st) = true)); [|reflexivity].
  intros st ev H. destruct ev;
    try (rewrite step_items_unless_settle; [exact H|intros; discriminate]).
  cbn [step]. destruct (settle_items_cases id r st) as [-> | [v [Hr ->]]].
  - exact H.
  - now apply receive_truthy with (r := r).
Qed.

Lemma renderable_derives (v : Js.value) :
  renderable v = true -> exists g, geojson v = Some g.
Proof.
  unfold geojson, Js.or_else.
  destruct v as [| |b|q|s|ps|fields]; cbn [Js.truthy renderable negb];
    try (intros _; now eexists); try discriminate.
  - destruct b; [discriminate|]. intros _. now eexists.
  - destruct (Qeq_bool q 0); [|discriminate]. intros _. now eexists.
  - destruct (String.eqb s ""); [|discriminate]. intros _. now eexists.
  - intros H. apply map_throwing_feature in H as [fs Hfs]. rewrite Hfs. now eexists.
Qed.

Lemma step_mounted_unless_settle (st : State) (ev : Event) :
  (forall id r, ev <> Settle id r) -> mounted (step st ev) = mounted st.
Proof.
  intros Hne. destruct ev; cbn [step];
    try (exfalso; eapply Hne; reflexivity);
    unfold onLoad, setLoading, runSearch, clearSearch, deleteAll, onClusterClick;
    frame.
Qed.

Lemma setItems_renderable_mounted (v : Js.value) (st : State) :
  renderable v = true -> mounted (setItems v st) = mounted st.
Proof.
  intros Hv. unfold setItems. destruct (mounted st) eqn:Hm; [|exact Hm].
  unfold rerender. cbn [items set_items].
  destruct (renderable_derives v Hv) as [g ->].
  rewrite (proj2 (proj2 (proj2 (proj2 (proj2 (sync_source_fields g (set_items v st))))))).
  exact Hm.
Qed.

Lemma settle_benign_mounted (id : nat) (r : Response) (st : State) :
  benign r = true -> mounted (settle id r st) = mounted st.
Proof.
  unfold benign, settle. intros Hb.
  destruct (pending id (inflight st)) as [op|]; [|reflexivity].
  destruct op; cbn [resume];
    unfold loadAll_resume, runSearch_resume, clearSearch_resume;
    destruct (receive r) as [v|e]; try reflexivity;
    now rewrite setItems_renderable_mounted.
Qed.

(** X4. No sequence of draws, clicks, map events and fetch results takes the
    component down, as long as every response that was stored is renderable
    (failed fetches included: they store nothing). *)
Theorem renderable_responses_keep_mounted (url : option string) (evs : list Event) :
  forallb benign_event evs = true ->
  mounted (run (mount url) evs) = true.
Proof.
  assert (H : forall evs st, forallb benign_event evs = true ->
                             mounted (run st evs) = mounted st).
  { clear evs. induction evs as [|ev evs' IH]; intros st Hb; [reflexivity|].
    cbn [forallb] in Hb. apply andb_prop in Hb as [Hev Hrest].
    change (mounted (run (step st ev) evs') = mounted st).
    rewrite (IH _ Hrest).
    destruct ev; try (apply step_mounted_unless_settle; intros; discriminate).
    cbn [step]. now apply settle_benign_mounted. }
  intros Hb. now rewrite (H evs (mount url) Hb).
Qed.

Lemma renderable_responses_keep_mounted_witness :
  mounted (run (mount api)
             [ Settle 0 NetworkFailure; Drawn [square]; ClickSearch;
               Settle 1 (Body (Some (Js.Obj []))); ClickClear;
               ClickCluster {| rendered := []; expansionZoom := fun _ => None |};
               MapLoad; Settle 2 (items_body [record_value record_B]) ]) = true.
Proof.
  exact (renderable_responses_keep_mounted api
           [ Settle 0 NetworkFailure; Drawn [square]; ClickSearch;
             Settle 1 (Body (Some (Js.Obj []))); ClickClear;
             ClickCluster {| rendered := []; expansionZoom := fun _ => None |};
             MapLoad; Settle 2 (items_body [record_value record_B]) ] eq_refl).
Defined.

(** A stored value that is not renderable does take it down. *)
Example unrenderable_response_unmounts :
  mounted (run (mount api) [Settle 0 (Body (Some (Js.Obj [("items", Js.Num 5)])))]) = false
  /\ mounted (run (mount api) [Settle 0 (items_body [Js.Null])]) = false.
Proof. split; reflexivity. Qed.

(** ** Requests *)

Lemma settle_network (id : nat) (r : Response) (st : State) :
  network (settle id r st) = network st.
Proof.
  unfold settle, resume, loadAll_resume, runSearch_resume, clearSearch_resume,
    setItems, rerender, unmount, sync_source.
  frame.
Qed.




(** What one event adds to the request list. *)
Lemma step_network_cases (st : State) (ev : Event) :
  network (step st ev) = network st
  \/ (is_click ev = true
      /\ (network (step st ev) = network st ++ [Get (properties_url st)]
          \/ exists poly,
               is_polygon poly = true
               /\ network (step st ev)
                  = network st ++ [PostJson (search_url st) (search_body poly)])).
Proof.
  destruct ev; cbn [step is_click].
  - left. frame.
  - left. unfold onLoad, setLoading. frame.
  - left. frame.
  - destruct (mounted st); [|now left].
    unfold runSearch. destruct (drawRef st) as [features|]; [|now left].
    destruct (find is_polygon features) as [poly|] eqn:Hfind; [|now left].
    right. split; [reflexivity|]. right. exists poly. split; [|reflexivity].
    now apply find_some in Hfind.
  - destruct (mounted st); [|now left].
    right. split; [reflexivity|]. left.
    unfold clearSearch, deleteAll. now destruct (drawRef st).
  - left. apply settle_network.
  - left. unfold onClusterClick. frame.
Qed.

(** X5. The request list only grows, and only by button clicks: over any
    sequence of events it gains at most one request per click of Search or
    Clear.  Fetch completions, failed ones included, map events and drawing
    never send anything, so nothing is retried. *)
Theorem requests_come_from_clicks (st : State) (evs : list Event) :
  exists more,
    network (run st evs) = network st ++ more
    /\ (List.length more <= clicks evs)%nat.
Proof.
  revert st. induction evs as [|ev evs IH]; intros st.
  - exists []. split; [now rewrite app_nil_r|]. apply Nat.le_0_l.
  - change (run st (ev :: evs)) with (run (step st ev) evs).
    destruct (IH (step st ev)) as [more [Hnet Hlen]].
    unfold clicks in *. cbn [filter].
    destruct (step_network_cases st ev) as [Hsame | [Hclick Hadd]].
    + exists more. split; [now rewrite Hnet, Hsame|].
      destruct (is_click ev); cbn [List.length]; lia.
    + rewrite Hclick. cbn [List.length].
      destruct Hadd as [Hadd | [poly [_ Hadd]]]; rewrite Hadd in Hnet;
        rewrite <- app_assoc in Hnet; eexists; (split; [exact Hnet|]);
        cbn [List.length app]; lia.
Qed.


(** X7. Clear always sends the unfiltered request, drawn or not, and empties
    the drawing; a Search clicked right after it finds no polygon and does
    nothing. *)
Theorem search_after_clear_is_noop (st : State) :
  network (clearSearch st) = network st ++ [Get (properties_url st)]
  /\ drawRef (clearSearch st) = option_map (fun _ => []) (drawRef st)
  /\ runSearch (clearSearch st) = clearSearch st
  /\ step (step st ClickClear) ClickSearch = step st ClickClear.
Proof.
  assert (Hrun : runSearch (clearSearch st) = clearSearch st).
  { unfold runSearch, clearSearch, deleteAll.
    destruct (drawRef st) eqn:Hd; cbn; now rewrite ?Hd. }
  split; [|split; [|split]].
  - unfold clearSearch, deleteAll. now destruct (drawRef st).
  - unfold clearSearch, deleteAll.
    destruct (drawRef st) eqn:Hd; cbn; now rewrite ?Hd.
  - exact Hrun.
  - cbn [step]. destruct (mounted st) eqn:Hm.
    + replace (mounted (clearSearch st)) with true; [exact Hrun|].
      unfold clearSearch, deleteAll. destruct (drawRef st); cbn; now rewrite Hm.
    + now rewrite Hm.
Qed.

(** ** The map source after 'load' *)

(** X8. Once the source exists and the style reports loaded, a fetch that
    completes with a renderable answer reaches the map: the dataset becomes
    the answer and the source holds the collection derived from it. *)
Theorem ready_source_follows_dataset
    (st : State) (m : MapSurface) (id : nat) (op : Operation) (data v g : Js.value) :
  mounted st = true ->
  mapRef st = Some m ->
  styleLoaded m = true ->
  source m <> None ->
  pending id (inflight st) = Some op ->
  Js.get data "items" = Some v ->
  geojson (Js.or_else v (Js.Arr [])) = Some g ->
  items (settle id (Body (Some data)) st) = Js.or_else v (Js.Arr [])
  /\ source_data (settle id (Body (Some data)) st) = Some g.
Proof.
  intros Hm Hmap Hstyle Hsrc Hp Hv Hg.
  unfold settle. rewrite Hp.
  assert (H : forall st', mounted st' = true -> mapRef st' = Some m ->
              items (setItems (Js.or_else v (Js.Arr [])) st') = Js.or_else v (Js.Arr [])
              /\ source_data (setItems (Js.or_else v (Js.Arr [])) st') = Some g).
  { intros st' Hm' Hmap'. split; [now apply setItems_items|].
    unfold setItems. rewrite Hm'. unfold rerender. cbn [items set_items].
    rewrite Hg. unfold sync_source, source_data. cbn [mapRef set_items].
    rewrite Hmap', Hstyle. cbn [negb].
    destruct (source m); [reflexivity|contradiction]. }
  destruct op; cbn [resume];
    unfold loadAll_resume, runSearch_resume, clearSearch_resume, receive;
    rewrite Hv; now apply H.
Qed.

Lemma ready_source_follows_dataset_witness :
  source_data (run loaded_with_A [MapLoad; ClickClear]) = Some (feature_collection [])
  /\ exists fs,
       source_data (settle 1 (items_body [record_value record_B])
                      (run loaded_with_A [MapLoad; ClickClear]))
       = Some (feature_collection fs)
       /\ map view fs = [Some (expected_view record_B)].
Proof.
  split; [reflexivity|].
  destruct (ready_source_follows_dataset
              (run loaded_with_A [MapLoad; ClickClear])
              {| styleLoaded := true;
                 loadClosure := feature_collection [];
                 source := Some (feature_collection []);
                 layers := ["clusters"; "cluster-count"; "unclustered-point"];
                 clickHandlers := ["clusters"; "unclustered-point"];
                 eased := [];
                 removed := false |}
              1%nat ClearSearch
              (Js.Obj [("items", Js.Arr [record_value record_B])])
              (Js.Arr [record_value record_B])
              (feature_collection
                 [Js.Obj [ ("type", Js.Str "Feature");
                           ("properties", Js.Obj [("id", Js.Str "2"); ("title", Js.Str "B");
                                                  ("price", Js.Str "")]);
                           ("geometry", point_value (1, 1)) ]])
              eq_refl eq_refl eq_refl ltac:(discriminate) eq_refl eq_refl eq_refl)
    as [_ Hsrc].
  eexists. split; [exact Hsrc|reflexivity].
Defined.

Lemma sync_source_busy (g : Js.value) (st : State) :
  style_is_loaded st = false -> sync_source g st = st.
Proof.
  unfold style_is_loaded, sync_source.
  destruct (mapRef st) as [m|]; [|reflexivity]. now intros ->.
Qed.

(** X9. While [isStyleLoaded()] answers false, no fetch completion changes
    the data of the map source, whatever the response: the second effect
    returns, and nothing keeps the collection for later. *)
Theorem busy_style_keeps_source (st : State) (id : nat) (r : Response) :
  style_is_loaded st = false ->
  source_data (settle id r st) = source_data st.
Proof.
  intros Hbusy. unfold settle.
  destruct (pending id (inflight st)) as [op|]; [|reflexivity].
  assert (H : forall v, source_data (setItems v (set_inflight (forget id (inflight st)) st))
                        = source_data st).
  { intros v. unfold setItems. cbn [mounted set_inflight].
    destruct (mounted st); [|reflexivity].
    unfold rerender.
    destruct (geojson _) as [g|].
    - now rewrite sync_source_busy.
    - unfold source_data, unmount. cbn. now destruct (mapRef st). }
  destruct op; cbn [resume];
    unfold loadAll_resume, runSearch_resume, clearSearch_resume;
    destruct (receive r); try apply H; reflexivity.
Qed.

Lemma busy_style_keeps_source_witness :
  style_is_loaded (run loaded_with_A [MapLoad; StyleLoaded false; ClickClear]) = false
  /\ source_data (settle 1 (items_body [record_value record_B])
                    (run loaded_with_A [MapLoad; StyleLoaded false; ClickClear]))
     = Some (feature_collection [])
  /\ items (settle 1 (items_body [record_value record_B])
              (run loaded_with_A [MapLoad; StyleLoaded false; ClickClear]))
     = dataset_value [record_B].
Proof.
  split; [reflexivity|]. split; [|reflexivity].
  rewrite (busy_style_keeps_source
             (run loaded_with_A [MapLoad; StyleLoaded false; ClickClear])
             1 (items_body [record_value record_B]) eq_refl).
  reflexivity.
Defined.

(** ** Cluster clicks *)

(** X10. On a click on a cluster, once the handler is attached, when the map
    knows the expansion zoom of the first feature under the point, the camera
    gets exactly one more command: ease to that feature's coordinates at that
    zoom.  The dataset, the requests and the logs are untouched. *)
Theorem cluster_click_eases_to_first_feature
    (st : State) (e : ClusterClick) (f : RenderedFeature) (rest : list RenderedFeature)
    (zoom : Q) :
  handles_cluster_clicks st = true ->
  rendered e = f :: rest ->
  expansionZoom e (cluster_id f) = Some zoom ->
  camera_moves (step st (ClickCluster e)) = camera_moves st ++ [(rcoordinates f, zoom)]
  /\ items (step st (ClickCluster e)) = items st
  /\ network (step st (ClickCluster e)) = network st
  /\ console (step st (ClickCluster e)) = console st
  /\ unhandled (step st (ClickCluster e)) = unhandled st.
Proof.
  unfold handles_cluster_clicks. intros Hh Hr Hz. cbn [step].
  destruct (live_map st) as [m|] eqn:Hlive; [|discriminate].
  rewrite Hh. apply live_map_some in Hlive as [Hmap _].
  unfold onClusterClick, camera_moves. rewrite Hmap, Hr, Hz. cbn.
  now repeat split.
Qed.

Lemma cluster_click_eases_to_first_feature_witness :
  camera_moves (step (run loaded_with_A [MapLoad]) (ClickCluster cluster_click))
  = [((3, 4), 5)]
  /\ network (step (run loaded_with_A [MapLoad]) (ClickCluster cluster_click))
     = [Get "http://localhost:8000/api/properties"].
Proof.
  destruct (cluster_click_eases_to_first_feature
              (run loaded_with_A [MapLoad]) cluster_click
              {| cluster_id := Some 7%Z; rcoordinates := (3, 4) |} [] 5
              eq_refl eq_refl eq_refl) as [Hc [_ [Hn _]]].
  rewrite Hc, Hn. split; reflexivity.
Defined.

Lemma settle_map_cases (id : nat) (r : Response) (st : State) :
  mapRef (settle id r st) = mapRef st
  \/ exists m,
       mapRef st = Some m
       /\ ((exists g, source m <> None /\ mapRef (settle id r st) = Some (set_source g m))
           \/ mapRef (settle id r st) = Some (map_remove m)).
Proof.
  unfold settle. destruct (pending id (inflight st)) as [op|]; [|now left].
  assert (H : forall v,
             let st' := setItems v (set_inflight (forget id (inflight st)) st) in
             mapRef st' = mapRef st
             \/ exists m,
                  mapRef st = Some m
                  /\ ((exists g, source m <> None /\ mapRef st' = Some (set_source g m))
                      \/ mapRef st' = Some (map_remove m))).
  { intros v. cbv zeta. unfold setItems. cbn [mounted set_inflight].
    destruct (mounted st); [|now left].
    unfold rerender. destruct (geojson _) as [g|].
    - unfold sync_source. cbn.
      destruct (mapRef st) as [m|] eqn:Hmap; [|left; now rewrite ?Hmap].
      destruct (styleLoaded m); cbn; [|left; now rewrite ?Hmap].
      destruct (source m) eqn:Hs; [|left; now rewrite ?Hmap].
      right. exists m. split; [reflexivity|]. left. exists g.
      split; [congruence|reflexivity].
    - unfold unmount. cbn.
      destruct (mapRef st) as [m|] eqn:Hmap; [|now left].
      right. exists m. split; [reflexivity|]. now right. }
  destruct op; cbn [resume];
    unfold loadAll_resume, runSearch_resume, clearSearch_resume;
    destruct (receive r); try apply H; now left.
Qed.

Lemma handlers_wait_for_load (url : option string) (evs : list Event) (m : MapSurface) :
  mapRef (run (mount url) evs) = Some m ->
  source m = None ->
  clickHandlers m = [].
Proof.
  revert m.
  apply (run_invariant
           (fun st => forall m, mapRef st = Some m -> source m = None -> clickHandlers m = [])).
  - intros st ev IH m Hm Hs. destruct ev; cbn [step] in Hm.
    + destruct (live_map st) as [m'|] eqn:Hlive; [|now apply IH].
      apply live_map_some in Hlive as [Hmap _].
      cbn in Hm. injection Hm as <-. cbn in *. now apply (IH m').
    + destruct (live_map st) as [m'|] eqn:Hlive; [|now apply IH].
      apply live_map_some in Hlive as [Hmap _].
      destruct (source m') eqn:Hs'; [now apply IH|].
      unfold onLoad, setLoading in Hm. cbn in Hm.
      destruct (mounted st); cbn in Hm; injection Hm as <-; discriminate.
    + destruct (drawRef st); [destruct (mounted st)|]; now apply IH.
    + destruct (mounted st); [|now apply IH].
      unfold runSearch in Hm. destruct (drawRef st); [|now apply IH].
      destruct (find is_polygon l); now apply IH.
    + destruct (mounted st); [|now apply IH].
      unfold clearSearch, deleteAll in Hm. destruct (drawRef st); now apply IH.
    + destruct (settle_map_cases id r st) as [Heq | [m' [Hmap [[g [Hsrc Heq]] | Heq]]]];
        rewrite Heq in Hm.
      * now apply IH.
      * injection Hm as <-. discriminate.
      * injection Hm as <-. reflexivity.
    + destruct (live_map st) as [m'|] eqn:Hlive; [|now apply IH].
      apply live_map_some in Hlive as [Hmap _].
      destruct (existsb _ _); [|now apply IH].
      unfold onClusterClick in Hm. rewrite Hmap in Hm.
      destruct (rendered e); [now apply IH|].
      destruct (expansionZoom e _); [|now apply IH].
      cbn in Hm. injection Hm as <-. cbn in *. now apply (IH m').
  - intros m Hm _. cbn in Hm. injection Hm as <-. reflexivity.
Qed.

(** X11. The click handlers are attached inside the 'load' handler: as long
    as the map source does not exist, a click on a cluster has no effect at
    all, whatever the map would answer. *)
Theorem cluster_click_before_load_is_ignored
    (url : option string) (evs : list Event) (e : ClusterClick) :
  source_data (run (mount url) evs) = None ->
  step (run (mount url) evs) (ClickCluster e) = run (mount url) evs.
Proof.
  intros Hs. cbn [step].
  destruct (live_map (run (mount url) evs)) as [m|] eqn:Hlive; [|reflexivity].
  apply live_map_some in Hlive as [Hmap _].
  unfold source_data in Hs. rewrite Hmap in Hs.
  now rewrite (handlers_wait_for_load url evs m Hmap Hs).
Qed.

Lemma cluster_click_before_load_is_ignored_witness :
  camera_moves (step (run (mount api) [Drawn [square]; ClickSearch])
                  (ClickCluster cluster_click)) = [].
Proof.
  rewrite (cluster_click_before_load_is_ignored api [Drawn [square]; ClickSearch]
             cluster_click eq_refl).
  reflexivity.
Defined.

(** ** Caught failures *)

(** X12. When the fetch of the initial load or of a search fails (transport,
    body that is not JSON, null body), the continuation does one thing: it
    logs the error.  Dataset, map, drawing and request list are what they
    were and nothing escapes; the fetch is no longer pending. *)
Theorem caught_failure_only_logs
    (st : State) (id : nat) (op : Operation) (r : Response) (e : JsError) :
  pending id (inflight st) = Some op ->
  op <> ClearSearch ->
  receive r = inr e ->
  settle id r st = console_error e (set_inflight (forget id (inflight st)) st).
Proof.
  intros Hp Hop Hr. unfold settle. rewrite Hp.
  destruct op; try congruence; cbn [resume];
    unfold loadAll_resume, runSearch_resume; now rewrite Hr.
Qed.

(** The initial load fails: the dataset stays empty, one line is logged, and
    a later search goes out as usual. *)
Lemma caught_failure_only_logs_witness :
  items (settle 0 NetworkFailure (mount api)) = Js.Arr []
  /\ console (settle 0 NetworkFailure (mount api)) = [FetchRejected]
  /\ unhandled (settle 0 NetworkFailure (mount api)) = []
  /\ network (run (settle 0 NetworkFailure (mount api)) [Drawn [square]; ClickSearch])
     = [ Get "http://localhost:8000/api/properties";
         PostJson "http://localhost:8000/api/properties/search" (search_body square) ].
Proof.
  rewrite (caught_failure_only_logs (mount api) 0 LoadAll NetworkFailure FetchRejected
             eq_refl ltac:(discriminate) eq_refl).
  repeat split; reflexivity.
Defined.

(** ** The first effect run again *)

(** X13. The first effect builds a map only while [mapRef] is empty, and its
    cleanup removes the map without emptying the ref.  So running the effect
    again changes nothing, and after a cleanup it does not build a new map:
    the component is left holding the removed one. *)
Theorem first_effect_never_rebuilds_map (st : State) (g : Js.value) :
  mapRef st <> None ->
  create_map g st = st
  /\ create_map g (cleanup st) = cleanup st
  /\ live_map (create_map g (cleanup st)) = None.
Proof.
  intros Hmap. destruct (mapRef st) as [m|] eqn:Hm; [|contradiction].
  assert (Hc : create_map g (cleanup st) = cleanup st).
  { unfold create_map, cleanup. cbn. now rewrite Hm. }
  split; [|split].
  - unfold create_map. now rewrite Hm.
  - exact Hc.
  - rewrite Hc. unfold live_map, cleanup. cbn. now rewrite Hm.
Qed.

Lemma first_effect_never_rebuilds_map_witness :
  mapRef (mount api) <> None
  /\ live_map (mount api) <> None
  /\ live_map (create_map (feature_collection []) (cleanup (mount api))) = None.
Proof.
  assert (H : mapRef (mount api) <> None) by discriminate.
  split; [exact H|]. split; [discriminate|].
  exact (proj2 (proj2 (first_effect_never_rebuilds_map (mount api) (feature_collection []) H))).
Defined.

(** ** Point clicks *)

(** X14. A click on an unclustered point whose price is undefined, null or
    the empty string (what [geojson] stores for a record without price) opens
    one popup at the point's coordinates whose price line is a bare dollar
    sign; the title is printed as it is, whatever the number formats are. *)
Theorem popup_without_price
    (number_text locale_text : Q -> string) (f : RenderedPoint) (rest : list RenderedPoint) :
  pprice f = PUndefined \/ pprice f = PNull \/ pprice f = PStr "" ->
  onPointClick number_text locale_text (Some (f :: rest))
  = Some {| closeButton := false;
            offset := 12;
            lngLat := pcoordinates f;
            html := String.concat ""
                      [ "<div style="; quote; "font-weight:600;color:#0B1B3B"; quote; ">";
                        template_text number_text (ptitle f);
                        "</div><div style="; quote; "color:#1F4AFF"; quote;
                        ">$</div>" ] |}.
Proof.
  intros Hprice. unfold onPointClick, popup_html.
  assert (Hp : price_text locale_text (pprice f) = "").
  { destruct Hprice as [-> | [-> | ->]]; reflexivity. }
  rewrite Hp. reflexivity.
Qed.

Lemma popup_without_price_witness :
  option_map lngLat
    (onPointClick (fun _ => "0") (fun _ => "0,00")
       (Some [ {| ptitle := PStr "B"; pprice := PStr ""; pcoordinates := (1, 1) |} ]))
  = Some (1, 1).
Proof.
  rewrite (popup_without_price (fun _ => "0") (fun _ => "0,00")
             {| ptitle := PStr "B"; pprice := PStr ""; pcoordinates := (1, 1) |} []
             (or_intror (or_intror eq_refl))).
  reflexivity.
Defined.

(** With no feature in the event the handler returns before it builds
    anything; with a price it prints the locale's text. *)
Example point_click_edges :
  onPointClick (fun _ => "0") (fun _ => "100") None = None
  /\ onPointClick (fun _ => "0") (fun _ => "100") (Some []) = None
  /\ price_text (fun _ => "100") (PNum 100) = "100".
Proof. repeat split; reflexivity. Qed.

(** ** The last good dataset *)

(** X15. The dataset changes only when a fetch completes with an answer: over
    any sequence of draws, clicks, map events and failing fetches, of any
    operation, it keeps its value (the last good dataset stays). *)
Theorem dataset_survives_failures (st : State) (evs : list Event) :
  forallb settles_fail evs = true ->
  items (run st evs) = items st.
Proof.
  revert st. induction evs as [|ev evs IH]; intros st Hf; [reflexivity|].
  cbn [forallb] in Hf. apply andb_prop in Hf as [Hev Hrest].
  change (items (run (step st ev) evs) = items st).
  rewrite (IH _ Hrest).
  destruct ev; try (apply step_items_unless_settle; intros; discriminate).
  cbn [step]. now apply failed_settle_items.
Qed.

Lemma dataset_survives_failures_witness :
  items (run loaded_with_A
           [ Drawn [square]; ClickSearch; ClickClear; MapLoad;
             Settle 2 (Body None); Settle 1 NetworkFailure;
             ClickCluster stray_click; ClickSearch; Settle 3 (Body (Some Js.Null)) ])
  = dataset_value [record_A].
Proof.
  rewrite (dataset_survives_failures loaded_with_A
             [ Drawn [square]; ClickSearch; ClickClear; MapLoad;
               Settle 2 (Body None); Settle 1 NetworkFailure;
               ClickCluster stray_click; ClickSearch; Settle 3 (Body (Some Js.Null)) ]
             eq_refl).
  reflexivity.
Defined.
